(** * DaNED dataset loader (danlp/datasets/daned.py)

    A shallow embedding of the [DaNED] class: the two sidecar maps, the
    three partition tables read through pandas and enriched by lookup, and
    the point lookup [get_kg_context_from_qid] with its optional online
    fallback.  Python dictionaries are finite maps, the mutable loader
    object, the disk and the online service are threaded through a small
    state-and-exception monad. *)

From Stdlib Require Import ZArith Ascii String.
From stdpp Require Import base list strings gmap fin_maps.

Local Open Scope string_scope.

(** ** Python strings *)

Module Py.

(** [sep.join(l)] *)
Fixpoint str_join (sep : string) (l : list string) : string :=
  match l with
  | [] => EmptyString
  | [x] => x
  | x :: xs => x +:+ sep +:+ str_join sep xs
  end.

(** [s.endswith("/")] *)
Fixpoint endswith_sep (s : string) : bool :=
  match s with
  | EmptyString => false
  | String c EmptyString => bool_decide (c = "/"%char)
  | String _ s' => endswith_sep s'
  end.

(** [s.startswith("/")] *)
Definition startswith_sep (s : string) : bool :=
  match s with
  | String c _ => bool_decide (c = "/"%char)
  | EmptyString => false
  end.

(** [os.path.join(a, b)] of posixpath, for two components. *)
Definition os_path_join (a b : string) : string :=
  if startswith_sep b then b
  else if bool_decide (a = EmptyString) || endswith_sep a then a +:+ b
  else a +:+ "/" +:+ b.

End Py.

(** ** Knowledge-graph values *)

(** A Wikidata property list: [[p, v]] pairs whose members may be [None]. *)
Definition props : Type := list (option string * option string).

(** What [get_kg_context_from_qid] returns as properties: the list itself
    (output_as_dictionary) or its flattened string. *)
Inductive kg_context :=
| KgList (l : props)
| KgString (s : string).

(** [p if p != None else <empty>] *)
Definition or_empty (o : option string) : string := default EmptyString o.

(** Line 75: the double join of the properties list. *)
Definition flatten (properties : props) : string :=
  Py.str_join " "
    (map (fun '(p, v) => Py.str_join " " [or_empty p; or_empty v]) properties).

(** The flattening as the specification words it, written without any of
    the definitions above: each pair is its two members around one space,
    an absent member contributing no character; consecutive pairs are
    separated by one space. *)
Definition pair_text (pv : option string * option string) : string :=
  match pv with
  | (Some p, Some v) => p +:+ " " +:+ v
  | (Some p, None) => p +:+ " "
  | (None, Some v) => " " +:+ v
  | (None, None) => " "
  end.

Fixpoint flatten_spec (properties : props) : string :=
  match properties with
  | [] => EmptyString
  | pv :: rest =>
      match rest with
      | [] => pair_text pv
      | _ :: _ => pair_text pv +:+ " " +:+ flatten_spec rest
      end
  end.

(** ** Exceptions *)

(** The Python exceptions the loader can let through.  The specification's
    taxonomy names the first MissingPartitionFile and the third
    MalformedPartitionFile; the code raises the built-in ones. *)
Inductive exception :=
| FileNotFoundError (path : string)
| ParserError (path : string)
| KeyError (key : string)
| TypeError (what : string)
| OtherError (name : string).

Inductive result (A : Type) :=
| Ok (a : A)
| Raise (e : exception).
Arguments Ok {A} a.
Arguments Raise {A} e.

Definition is_ok {A} (r : result A) : bool :=
  match r with Ok _ => true | Raise _ => false end.

(** ** The pandas tables the loader manipulates *)

Module Pd.

(** A cell of a table: a missing value, Python's [None], a string, an
    integer, or a property list (an object cell). *)
Inductive cell :=
| NaN
| PyNone
| CStr (s : string)
| CInt (z : Z)
| CList (l : props).

(** A field as [read_csv] parses it out of a delimited file. *)
Inductive field :=
| Missing
| Text (s : string)
| Number (z : Z).

Definition cell_of_field (f : field) : cell :=
  match f with
  | Missing => NaN
  | Text s => CStr s
  | Number z => CInt z
  end.

(** [pd.isna] on one cell. *)
Definition isna (c : cell) : bool :=
  match c with
  | NaN | PyNone => true
  | _ => false
  end.

(** A row maps column names to cells; a name without a cell is missing.
    Only the cells under the table's column labels are ever looked at. *)
Definition cell_at (r : gmap string cell) (c : string) : cell :=
  default NaN (r !! c).

(** A table: its column labels in order and its rows, each under its
    index label. *)
Record DataFrame := {
  columns : list string;
  rows : list (nat * gmap string cell)
}.

(** One column of a table: index label and value. *)
Definition Series : Type := list (nat * cell).

(** What a delimited file holds once parsed: the header and the records. *)
Record table := {
  header : list string;
  records : list (gmap string field)
}.

(** The frame [read_csv] builds from a parsed file: a fresh range index. *)
Definition frame_of_table (t : table) : DataFrame :=
  {| columns := header t;
     rows := imap (fun i r => (i, cell_of_field <$> r)) (records t) |}.

Definition row_has_na (cols : list string) (r : gmap string cell) : bool :=
  existsb (fun c => isna (cell_at r c)) cols.

(** [df.dropna()]: the rows without any missing cell, labels kept. *)
Definition dropna (df : DataFrame) : DataFrame :=
  {| columns := columns df;
     rows := List.filter (fun ir => negb (row_has_na (columns df) ir.2)) (rows df) |}.

(** [df[c]] as an expression. *)
Definition getitem (df : DataFrame) (c : string) : result Series :=
  if bool_decide (c ∈ columns df)
  then Ok (map (fun ir => (ir.1, cell_at ir.2 c)) (rows df))
  else Raise (KeyError c).

(** The value a series holds under an index label. *)
Fixpoint at_label (s : Series) (i : nat) : option cell :=
  match s with
  | [] => None
  | (j, x) :: s' => if bool_decide (j = i) then Some x else at_label s' i
  end.

(** [df[c] = s]: the series is aligned on the frame's index; the column is
    replaced when it exists and appended otherwise. *)
Definition setitem (df : DataFrame) (c : string) (s : Series) : DataFrame :=
  {| columns := if bool_decide (c ∈ columns df) then columns df else columns df ++ [c];
     rows := map (fun ir => (ir.1, <[c := default NaN (at_label s ir.1)]> ir.2)) (rows df) |}.

(** A cell that can be used as a dictionary key. *)
Definition hashable (c : cell) : bool :=
  match c with CList _ => false | _ => true end.

(** [d.get(x, None)] on a dictionary with string keys: an unhashable key
    raises, a key of another type is simply not found. *)
Definition dict_get {V} (d : gmap string V) (x : cell) : result (option V) :=
  match x with
  | CStr s => Ok (d !! s)
  | CList _ => Raise (TypeError "unhashable type: 'list'")
  | _ => Ok None
  end.

End Pd.
Export Pd.

(** ** The loader object and its surroundings *)

(** The attributes [__init__] sets on the instance. *)
Record DaNED := {
  dataset_name : string;
  file_extension : string;
  dataset_dir : string;
  properties : gmap string props;
  descriptions : gmap string string
}.

(** A file of the dataset directory, as pandas sees it. *)
Inductive file :=
| Parsed (t : table)
| Unparsable.

(** The online knowledge-graph lookup [danlp.utils.get_kg_context_from_wikidata_qid]
    is an external collaborator: it answers from a state of its own and
    may raise. *)
Class Collaborator := {
  net : Type;
  wikidata_kg_context : string -> net -> result (props * string) * net
}.

Section Loader.
Context `{Collaborator}.

(** Everything a method call can read or change: the instance, the disk,
    the online service, and the log of online lookups made so far. *)
Record state := {
  self : DaNED;
  disk : gmap string file;
  service : net;
  online_calls : list string
}.

(** Computations in the state-and-exception monad; a raised exception keeps
    the state reached so far. *)
Definition M (A : Type) : Type := state -> result A * state.

#[export] Instance M_ret : MRet M := fun A a st => (Ok a, st).
#[export] Instance M_bind : MBind M := fun A B f m st =>
  match m st with
  | (Ok a, st') => f a st'
  | (Raise e, st') => (Raise e, st')
  end.

Definition get_self : M DaNED := fun st => (Ok (self st), st).

Definition lift {A} (r : result A) : M A := fun st => (r, st).

(** [pd.read_csv(path, sep='\t', encoding='utf-8')] *)
Definition read_csv (path : string) : M DataFrame := fun st =>
  match disk st !! path with
  | None => (Raise (FileNotFoundError path), st)
  | Some Unparsable => (Raise (ParserError path), st)
  | Some (Parsed t) => (Ok (frame_of_table t), st)
  end.

(** The call of the online collaborator, recorded in the log. *)
Definition get_kg_context_from_wikidata_qid (qid : string) : M (props * string) :=
  fun st =>
    let '(r, n) := wikidata_kg_context qid (service st) in
    (r, {| self := self st; disk := disk st; service := n;
           online_calls := online_calls st ++ [qid] |}).

(** [series.apply(f)] *)
Fixpoint series_apply (f : cell -> M cell) (s : Series) : M Series :=
  match s with
  | [] => mret []
  | (i, x) :: s' =>
      y ← f x;
      ys ← series_apply f s';
      mret ((i, y) :: ys)
  end.

(** [d[k]] on a local dictionary. *)
Definition dict_getitem {V} (d : gmap string V) (k : string) : M V :=
  match d !! k with
  | Some v => mret v
  | None => lift (Raise (KeyError k))
  end.

(** A [for] loop threading its local variables. *)
Fixpoint for_each {A S} (body : S -> A -> M S) (l : list A) (acc : S) : M S :=
  match l with
  | [] => mret acc
  | a :: l' => acc' ← body acc a; for_each body l' acc'
  end.

(** [lambda x: self.properties.get(x, None)] *)
Definition properties_of (x : cell) : M cell :=
  me ← get_self;
  v ← lift (dict_get (properties me) x);
  mret (match v with Some l => CList l | None => PyNone end).

(** [lambda x: self.descriptions.get(x, None)] *)
Definition description_of (x : cell) : M cell :=
  me ← get_self;
  v ← lift (dict_get (descriptions me) x);
  mret (match v with Some d => CStr d | None => PyNone end).

(** The path of a partition's file (line 50). *)
Definition partition_path (me : DaNED) (part : string) : string :=
  Py.os_path_join (dataset_dir me)
    (dataset_name me +:+ "." +:+ part +:+ file_extension me).

(** The body of the loop of [load_with_pandas] (lines 50 to 54). *)
Definition load_part (data : gmap string DataFrame) (part : string)
  : M (gmap string DataFrame) :=
  me ← get_self;
  df ← read_csv (partition_path me part);
  let data := <[part := dropna df]> data in
  d ← dict_getitem data part;
  q ← lift (getitem d "qid");
  kg ← series_apply properties_of q;
  d ← dict_getitem data part;
  let data := <[part := setitem d "kg" kg]> data in
  d ← dict_getitem data part;
  q ← lift (getitem d "qid");
  ds ← series_apply description_of q;
  d ← dict_getitem data part;
  let data := <[part := setitem d "description" ds]> data in
  mret data.

Definition partitions : list string := ["train"; "dev"; "test"].

Definition load_with_pandas : M (DataFrame * DataFrame * DataFrame) :=
  data ← for_each load_part partitions ∅;
  train ← dict_getitem data "train";
  dev ← dict_getitem data "dev";
  test ← dict_getitem data "test";
  mret (train, dev, test).

Definition get_kg_context_from_qid (qid : string)
    (output_as_dictionary allow_online_search : bool) : M (kg_context * string) :=
  me ← get_self;
  let properties0 := default ([] : props) (properties me !! qid) in
  me ← get_self;
  let description0 := default EmptyString (descriptions me !! qid) in
  me ← get_self;
  pd ← (if negb (bool_decide (is_Some (properties me !! qid))) && allow_online_search
        then get_kg_context_from_wikidata_qid qid
        else mret (properties0, description0));
  let properties1 :=
    if negb output_as_dictionary then KgString (flatten pd.1) else KgList pd.1 in
  mret (properties1, pd.2).

End Loader.

(** ** What the specification says the loader computes *)

(** A row is complete when every column holds a value that is not missing. *)
Definition complete (cols : list string) (r : gmap string cell) : bool :=
  forallb (fun c => negb (isna (cell_at r c))) cols.

(** The knowledge-graph cell of a row: the properties stored under the
    row's identifier, null when the map has none. *)
Definition kg_value (me : DaNED) (r : gmap string cell) : cell :=
  match cell_at r "qid" with
  | CStr q =>
      match properties me !! q with
      | Some l => CList l
      | None => PyNone
      end
  | _ => PyNone
  end.

(** The description cell of a row, likewise. *)
Definition description_value (me : DaNED) (r : gmap string cell) : cell :=
  match cell_at r "qid" with
  | CStr q =>
      match descriptions me !! q with
      | Some d => CStr d
      | None => PyNone
      end
  | _ => PyNone
  end.

Definition enrich_row (me : DaNED) (r : gmap string cell) : gmap string cell :=
  <["description" := description_value me r]> (<["kg" := kg_value me r]> r).

Definition with_column (cols : list string) (c : string) : list string :=
  if bool_decide (c ∈ cols) then cols else cols ++ [c].

(** The enriched table of a partition: the complete rows of the parsed
    file, in order and under their original labels, each with its two
    derived columns. *)
Definition enriched_spec (me : DaNED) (t : table) : DataFrame :=
  {| columns := with_column (with_column (header t) "kg") "description";
     rows := map (fun ir => (ir.1, enrich_row me ir.2))
               (List.filter (fun ir => complete (header t) ir.2)
                  (rows (frame_of_table t))) |}.

(** What loading one partition amounts to. *)
Definition partition_outcome (me : DaNED) (dsk : gmap string file) (part : string)
  : result DataFrame :=
  match dsk !! partition_path me part with
  | None => Raise (FileNotFoundError (partition_path me part))
  | Some Unparsable => Raise (ParserError (partition_path me part))
  | Some (Parsed t) =>
      if bool_decide ("qid" ∈ header t) then Ok (enriched_spec me t)
      else Raise (KeyError "qid")
  end.

(** What the whole method amounts to: the partitions in order, the first
    failure wins. *)
Definition load_outcome (me : DaNED) (dsk : gmap string file)
  : result (DataFrame * DataFrame * DataFrame) :=
  match partition_outcome me dsk "train" with
  | Raise e => Raise e
  | Ok tr =>
      match partition_outcome me dsk "dev" with
      | Raise e => Raise e
      | Ok dv =>
          match partition_outcome me dsk "test" with
          | Raise e => Raise e
          | Ok te => Ok (tr, dv, te)
          end
      end
  end.

(** A partition file that parses and has the identifier column. *)
Definition loadable (me : DaNED) (dsk : gmap string file) (part : string) : Prop :=
  exists t, dsk !! partition_path me part = Some (Parsed t) /\ "qid" ∈ header t.

(** The properties as returned for an output mode (lines 74 to 77). *)
Definition rendered (output_as_dictionary : bool) (l : props) : kg_context :=
  if output_as_dictionary then KgList l else KgString (flatten l).

(** A client's call of one of the two public methods. *)
Inductive call :=
| CallLoad
| CallLookup (qid : string) (output_as_dictionary allow_online_search : bool).

Definition run_call `{Collaborator} (c : call) (st : state) : state :=
  match c with
  | CallLoad => (load_with_pandas st).2
  | CallLookup qid d a => (get_kg_context_from_qid qid d a st).2
  end.

Definition run_calls `{Collaborator} (cs : list call) (st : state) : state :=
  foldl (fun s c => run_call c s) st cs.

(** ** Sample data *)

Module Sample.

(** A service that is unreachable. *)
Definition offline : Collaborator :=
  {| net := unit;
     wikidata_kg_context := fun _ n => (Raise (OtherError "ConnectionError"), n) |}.

(** A service that counts its requests and knows one entity. *)
Definition canned : Collaborator :=
  {| net := nat;
     wikidata_kg_context := fun q n =>
       (if bool_decide (q = "Q999")
        then Ok ([(Some "p", Some "v")], "desc")
        else Raise (OtherError "not found"),
        S n) |}.

Definition p1v1 : props := [(Some "p1", Some "v1"); (None, Some "v2")].

Definition me : DaNED :=
  {| dataset_name := "daned";
     file_extension := ".tsv";
     dataset_dir := "/cache/daned";
     properties := {[ "Q1" := p1v1; "Q7" := [(Some "occupation", Some "writer")] ]};
     descriptions := {[ "Q1" := "first entity" ]} |}.

Definition full : table :=
  {| header := ["qid"; "sentence"; "class"];
     records :=
       [ {[ "qid" := Text "Q1"; "sentence" := Text "a b"; "class" := Number 1 ]};
         {[ "qid" := Text "Q2"; "class" := Number 0 ]};
         {[ "qid" := Text "Q7"; "sentence" := Text "c"; "class" := Number 0 ]} ] |}.

(** A partition file without the sentence and label columns. *)
Definition ids_only : table :=
  {| header := ["qid"];
     records := [ {[ "qid" := Text "Q1" ]}; {[ "qid" := Text "Q5" ]} ] |}.

(** A partition file without the identifier column. *)
Definition no_qid : table :=
  {| header := ["sentence"; "class"];
     records := [ {[ "sentence" := Text "a"; "class" := Number 1 ]} ] |}.

Definition train_path : string := "/cache/daned/daned.train.tsv".
Definition dev_path : string := "/cache/daned/daned.dev.tsv".
Definition test_path : string := "/cache/daned/daned.test.tsv".

Definition disk_full : gmap string file :=
  {[ train_path := Parsed full; dev_path := Parsed full; test_path := Parsed full ]}.

Definition disk_ids_only : gmap string file :=
  {[ train_path := Parsed ids_only; dev_path := Parsed full; test_path := Parsed full ]}.

Definition disk_no_dev : gmap string file :=
  {[ train_path := Parsed full; test_path := Parsed full ]}.

Definition disk_no_qid : gmap string file :=
  {[ train_path := Parsed full; dev_path := Parsed no_qid; test_path := Parsed full ]}.

Definition st_offline (dsk : gmap string file) : @state offline :=
  @Build_state offline me dsk tt [].

Definition st_canned (dsk : gmap string file) : @state canned :=
  @Build_state canned me dsk 0 [].

End Sample.

(** ** Measures and views used by the further properties *)

(** The list with every null member replaced by the empty string. *)
Definition blank_nulls (l : props) : props :=
  map (fun pv => (Some (or_empty pv.1), Some (or_empty pv.2))) l.

(** The number of characters of all the members of a list. *)
Definition members_length (l : props) : nat :=
  sum_list (map (fun pv => String.length (or_empty pv.1) + String.length (or_empty pv.2)) l).

(** The table of the returned triple that belongs to a partition name. *)
Definition partition_frame (frames : DataFrame * DataFrame * DataFrame) (part : string)
  : option DataFrame :=
  if bool_decide (part = "train") then Some frames.1.1
  else if bool_decide (part = "dev") then Some frames.1.2
  else if bool_decide (part = "test") then Some frames.2
  else None.

(** ** Further sample data *)

Module Sample2.

(** An instance that knows a description but no properties for Q999. *)
Definition me_desc_only : DaNED :=
  {| dataset_name := "daned";
     file_extension := ".tsv";
     dataset_dir := "/cache/daned";
     properties := {[ "Q1" := Sample.p1v1 ]};
     descriptions := {[ "Q999" := "local text" ]} |}.

Definition st_desc_only : @state Sample.canned :=
  @Build_state Sample.canned me_desc_only Sample.disk_full 0 [].

(** A partition file whose identifiers were parsed as numbers. *)
Definition numeric_ids : table :=
  {| header := ["qid"; "sentence"; "class"];
     records :=
       [ {[ "qid" := Number 42; "sentence" := Text "a"; "class" := Number 1 ]} ] |}.

Definition disk_numeric : gmap string file :=
  {[ Sample.train_path := Parsed numeric_ids;
     Sample.dev_path := Parsed Sample.full;
     Sample.test_path := Parsed Sample.full ]}.

(** A partition file that cannot be parsed. *)
Definition disk_unparsable : gmap string file :=
  {[ Sample.train_path := Unparsable;
     Sample.dev_path := Parsed Sample.full;
     Sample.test_path := Parsed Sample.full ]}.

(** The same partitions beside a file the loader has no use for. *)
Definition disk_with_readme : gmap string file :=
  <[ "/cache/daned/README" := Unparsable ]> Sample.disk_full.

(** What loading [Sample.disk_full] returns. *)
Definition frames_full : DataFrame * DataFrame * DataFrame :=
  (enriched_spec Sample.me Sample.full,
   enriched_spec Sample.me Sample.full,
   enriched_spec Sample.me Sample.full).

Definition frames_numeric : DataFrame * DataFrame * DataFrame :=
  (enriched_spec Sample.me numeric_ids,
   enriched_spec Sample.me Sample.full,
   enriched_spec Sample.me Sample.full).

(** The first row of the enriched [Sample.full]. *)
Definition first_row : gmap string cell :=
  enrich_row Sample.me
    (cell_of_field <$>
       ({[ "qid" := Text "Q1"; "sentence" := Text "a b"; "class" := Number 1 ]}
        : gmap string field)).

Definition numeric_row : gmap string cell :=
  enrich_row Sample.me
    (cell_of_field <$>
       ({[ "qid" := Number 42; "sentence" := Text "a"; "class" := Number 1 ]}
        : gmap string field)).

End Sample2.

(** * Properties *)

(** ** Strings *)

Lemma str_join_pair (a b : string) : Py.str_join " " [a; b] = a +:+ " " +:+ b.
Proof. reflexivity. Qed.

Lemma flatten_cons (pv : option string * option string) (rest : props) :
  flatten (pv :: rest) =
  match rest with
  | [] => pair_text pv
  | _ :: _ => pair_text pv +:+ " " +:+ flatten rest
  end.
Proof. destruct pv as [[p|] [v|]], rest as [|[p' v'] rest]; reflexivity. Qed.

Lemma flatten_flatten_spec (l : props) : flatten l = flatten_spec l.
Proof.
  induction l as [|pv rest IH]; [reflexivity|].
  rewrite flatten_cons. destruct rest; [reflexivity|].
  simpl flatten_spec. by rewrite IH.
Qed.

Lemma rendered_string (l : props) : rendered false l = KgString (flatten_spec l).
Proof. unfold rendered. by rewrite flatten_flatten_spec. Qed.

(** Unfolding of the monad's plumbing. *)
Ltac run :=
  unfold mbind, M_bind, mret, M_ret, get_self, lift; cbv beta iota zeta; cbn [fst snd].

(** ** The point lookup *)

Section Lookup.
Context `{Collaborator}.

(** An identifier the properties map knows is answered from the maps, in
    the state as it was. *)
Lemma lookup_known (st : state) qid d a l :
  properties (self st) !! qid = Some l ->
  get_kg_context_from_qid qid d a st =
  (Ok (rendered d l, default EmptyString (descriptions (self st) !! qid)), st).
Proof.
  intros Hl. unfold get_kg_context_from_qid. run. rewrite Hl. simpl.
  by destruct d.
Qed.

(** Without the online fallback an unknown identifier gets the defaults. *)
Lemma lookup_unknown_offline (st : state) qid d :
  properties (self st) !! qid = None ->
  get_kg_context_from_qid qid d false st =
  (Ok (rendered d [], default EmptyString (descriptions (self st) !! qid)), st).
Proof.
  intros Hl. unfold get_kg_context_from_qid. run. rewrite Hl. simpl.
  by destruct d.
Qed.

(** With the fallback an unknown identifier is answered by the service,
    asked once. *)
Lemma lookup_unknown_online (st : state) qid d :
  properties (self st) !! qid = None ->
  get_kg_context_from_qid qid d true st =
  let after := {| self := self st; disk := disk st;
                  service := (wikidata_kg_context qid (service st)).2;
                  online_calls := online_calls st ++ [qid] |} in
  match (wikidata_kg_context qid (service st)).1 with
  | Ok (l, desc) => (Ok (rendered d l, desc), after)
  | Raise e => (Raise e, after)
  end.
Proof.
  intros Hl. unfold get_kg_context_from_qid, get_kg_context_from_wikidata_qid. run.
  rewrite Hl. simpl.
  destruct (wikidata_kg_context qid (service st)) as [[[l desc]|e] n]; simpl; [|done].
  by destruct d.
Qed.

(** In string mode a stored list comes back in the specification's wording
    of the flattening. *)
Lemma lookup_known_string (st : state) qid a l :
  properties (self st) !! qid = Some l ->
  get_kg_context_from_qid qid false a st =
  (Ok (KgString (flatten_spec l), default EmptyString (descriptions (self st) !! qid)), st).
Proof. intros Hl. rewrite (lookup_known _ _ _ _ _ Hl). by rewrite rendered_string. Qed.

Lemma lookup_keeps_self (st : state) qid d a :
  self (get_kg_context_from_qid qid d a st).2 = self st.
Proof.
  destruct (properties (self st) !! qid) as [l|] eqn:Hl.
  - by rewrite (lookup_known _ _ _ _ _ Hl).
  - destruct a.
    + rewrite (lookup_unknown_online _ _ _ Hl). simpl.
      by destruct (wikidata_kg_context qid (service st)).1 as [[??]|?].
    + by rewrite (lookup_unknown_offline _ _ _ Hl).
Qed.

End Lookup.

(** ** Tables *)

Lemma cell_of_field_hashable (f : field) : hashable (cell_of_field f) = true.
Proof. by destruct f. Qed.

Lemma cell_at_parsed (r : gmap string field) (c : string) :
  cell_at (cell_of_field <$> r) c = from_option cell_of_field NaN (r !! c).
Proof. unfold cell_at. rewrite lookup_fmap. by destruct (r !! c). Qed.

Lemma cell_at_insert_ne (r : gmap string cell) (c c' : string) (v : cell) :
  c ≠ c' -> cell_at (<[c := v]> r) c' = cell_at r c'.
Proof. intros Hne. unfold cell_at. by rewrite lookup_insert_ne. Qed.

Lemma frame_of_table_labels (t : table) :
  (rows (frame_of_table t)).*1 = seq 0 (length (records t)).
Proof.
  unfold frame_of_table. simpl. rewrite fmap_imap.
  rewrite (imap_ext _ (fun j _ => id j)); [|done].
  rewrite imap_seq_0. by rewrite list_fmap_id.
Qed.

Lemma frame_of_table_hashable (t : table) (c : string) :
  Forall (fun ir : nat * gmap string cell => hashable (cell_at ir.2 c) = true)
    (rows (frame_of_table t)).
Proof.
  apply Forall_forall. intros [i r] Hin. simpl.
  unfold frame_of_table in Hin. simpl in Hin.
  apply elem_of_lookup_imap in Hin as (j & r0 & Heq & _).
  injection Heq as -> ->. rewrite cell_at_parsed.
  destruct (r0 !! c) as [f|]; [apply cell_of_field_hashable|done].
Qed.

Lemma filter_labels_NoDup {A} (p : nat * A -> bool) (l : list (nat * A)) :
  NoDup l.*1 -> NoDup (List.filter p l).*1.
Proof.
  induction l as [|[i a] l IH]; simpl; [done|].
  intros Hnd. apply NoDup_cons in Hnd as [Hi Hnd].
  destruct (p (i, a)); simpl; [|by apply IH].
  apply NoDup_cons. split; [|by apply IH].
  intros Hin. apply Hi. apply list_elem_of_fmap in Hin as [[j b] [-> Hin]].
  apply list_elem_of_In, filter_In in Hin as [Hin _].
  apply list_elem_of_fmap. exists (j, b). split; [done|]. by apply list_elem_of_In.
Qed.

Lemma filter_Forall {A} (P : A -> Prop) (p : A -> bool) (l : list A) :
  Forall P l -> Forall P (List.filter p l).
Proof.
  induction 1 as [|a l Ha Hl IH]; simpl; [constructor|].
  destruct (p a); [by constructor|done].
Qed.

(** A series computed row by row from a frame with distinct labels gives
    each row its own value back when aligned on the labels. *)
Lemma at_label_own (g : gmap string cell -> cell) (l : list (nat * gmap string cell)) i r :
  NoDup l.*1 -> (i, r) ∈ l ->
  at_label (map (fun ir => (ir.1, g ir.2)) l) i = Some (g r).
Proof.
  induction l as [|[j r0] l IH]; simpl; intros Hnd Hin.
  - by apply elem_of_nil in Hin.
  - apply NoDup_cons in Hnd as [Hj Hnd].
    apply elem_of_cons in Hin as [Heq|Hin].
    + injection Heq as -> ->. by rewrite bool_decide_eq_true_2.
    + rewrite bool_decide_eq_false_2; [by apply IH|].
      intros ->. apply Hj. apply list_elem_of_fmap. by exists (i, r).
Qed.

Lemma setitem_own (df : DataFrame) (c : string) (g : gmap string cell -> cell) :
  NoDup (rows df).*1 ->
  setitem df c (map (fun ir => (ir.1, g ir.2)) (rows df)) =
  {| columns := with_column (columns df) c;
     rows := map (fun ir => (ir.1, <[c := g ir.2]> ir.2)) (rows df) |}.
Proof.
  intros Hnd. unfold setitem, with_column. f_equal.
  apply map_ext_in. intros [i r] Hin. simpl.
  by rewrite (at_label_own g _ i r Hnd); [|apply list_elem_of_In].
Qed.

Lemma row_has_na_complete (cols : list string) (r : gmap string cell) :
  negb (row_has_na cols r) = complete cols r.
Proof.
  unfold row_has_na, complete. induction cols as [|c cols IH]; simpl; [done|].
  rewrite negb_orb. by rewrite IH.
Qed.

Lemma kg_value_insert_ne me (r : gmap string cell) c v :
  c ≠ "qid" -> kg_value me (<[c := v]> r) = kg_value me r.
Proof. intros Hne. unfold kg_value. by rewrite cell_at_insert_ne. Qed.

Lemma description_value_insert_ne me (r : gmap string cell) c v :
  c ≠ "qid" -> description_value me (<[c := v]> r) = description_value me r.
Proof. intros Hne. unfold description_value. by rewrite cell_at_insert_ne. Qed.

Section Load.
Context `{Collaborator}.

Lemma bind_ok {A B} (m : M A) (f : A -> M B) st a st' :
  m st = (Ok a, st') -> (m ≫= f) st = f a st'.
Proof. intros Hm. run. by rewrite Hm. Qed.

Lemma bind_raise {A B} (m : M A) (f : A -> M B) st e st' :
  m st = (Raise e, st') -> (m ≫= f) st = (Raise e, st').
Proof. intros Hm. run. by rewrite Hm. Qed.

Lemma properties_of_hashable (st : state) (r : gmap string cell) :
  hashable (cell_at r "qid") = true ->
  properties_of (cell_at r "qid") st = (Ok (kg_value (self st) r), st).
Proof.
  intros Hh. unfold properties_of, kg_value. run.
  by destruct (cell_at r "qid").
Qed.

Lemma description_of_hashable (st : state) (r : gmap string cell) :
  hashable (cell_at r "qid") = true ->
  description_of (cell_at r "qid") st = (Ok (description_value (self st) r), st).
Proof.
  intros Hh. unfold description_of, description_value. run.
  by destruct (cell_at r "qid").
Qed.

Lemma series_apply_rows (f : cell -> M cell) (g : gmap string cell -> cell)
    (st : state) (l : list (nat * gmap string cell)) :
  Forall (fun ir => f (cell_at ir.2 "qid") st = (Ok (g ir.2), st)) l ->
  series_apply f (map (fun ir => (ir.1, cell_at ir.2 "qid")) l) st =
  (Ok (map (fun ir => (ir.1, g ir.2)) l), st).
Proof.
  induction 1 as [|[i r] l Hf Hl IH]; simpl; [done|].
  simpl in Hf. rewrite (bind_ok _ _ _ _ _ Hf). by rewrite (bind_ok _ _ _ _ _ IH).
Qed.

Lemma getitem_qid (df : DataFrame) :
  "qid" ∈ columns df ->
  getitem df "qid" = Ok (map (fun ir => (ir.1, cell_at ir.2 "qid")) (rows df)).
Proof. intros Hin. unfold getitem. by rewrite bool_decide_eq_true_2. Qed.

Lemma dict_getitem_insert {V} (d : gmap string V) k v (st : state) :
  dict_getitem (<[k := v]> d) k st = (Ok v, st).
Proof. unfold dict_getitem. by rewrite lookup_insert_eq. Qed.

(** The two enrichment passes on a frame with distinct labels and hashable
    identifiers. *)
Lemma enrich_passes (data : gmap string DataFrame) part (df : DataFrame) (st : state) :
  "qid" ∈ columns df ->
  NoDup (rows df).*1 ->
  Forall (fun ir => hashable (cell_at ir.2 "qid") = true) (rows df) ->
  (let data := <[part := df]> data in
   d ← dict_getitem data part;
   q ← lift (getitem d "qid");
   kg ← series_apply properties_of q;
   d ← dict_getitem data part;
   let data := <[part := setitem d "kg" kg]> data in
   d ← dict_getitem data part;
   q ← lift (getitem d "qid");
   ds ← series_apply description_of q;
   d ← dict_getitem data part;
   let data := <[part := setitem d "description" ds]> data in
   mret data) st =
  (Ok (<[part :=
          {| columns := with_column (with_column (columns df) "kg") "description";
             rows := map (fun ir => (ir.1, enrich_row (self st) ir.2)) (rows df) |}]> data),
   st).
Proof.
  intros Hq Hnd Hh. cbv zeta.
  set (me := self st).
  set (df1 := {| columns := with_column (columns df) "kg";
                 rows := map (fun ir => (ir.1, <["kg" := kg_value me ir.2]> ir.2)) (rows df) |}).
  assert (Hlab : (rows df1).*1 = (rows df).*1).
  { simpl. rewrite <- list_fmap_compose. by apply list_fmap_ext. }
  assert (Hq1 : "qid" ∈ columns df1).
  { simpl. unfold with_column. case_bool_decide; [done|]. apply elem_of_app. by left. }
  assert (Hkg : Forall (fun ir => properties_of (cell_at ir.2 "qid") st
                                  = (Ok (kg_value me ir.2), st)) (rows df)).
  { eapply Forall_impl; [exact Hh|]. intros ir Hir. by apply properties_of_hashable. }
  assert (Hds : Forall (fun ir => description_of (cell_at ir.2 "qid") st
                                  = (Ok (description_value me ir.2), st)) (rows df1)).
  { simpl. apply Forall_fmap. eapply Forall_impl; [exact Hh|]. intros ir Hir. simpl.
    apply description_of_hashable. by rewrite cell_at_insert_ne. }
  rewrite (bind_ok _ _ _ _ _ (dict_getitem_insert _ _ _ _)).
  rewrite (getitem_qid _ Hq).
  rewrite (bind_ok (lift (Ok _)) _ st _ st eq_refl).
  rewrite (bind_ok _ _ _ _ _ (series_apply_rows _ _ _ _ Hkg)).
  rewrite (bind_ok _ _ _ _ _ (dict_getitem_insert _ _ _ _)).
  rewrite (setitem_own df "kg" (kg_value me) Hnd). fold df1.
  rewrite (bind_ok _ _ _ _ _ (dict_getitem_insert _ _ _ _)).
  rewrite (getitem_qid _ Hq1).
  rewrite (bind_ok (lift (Ok _)) _ st _ st eq_refl).
  rewrite (bind_ok _ _ _ _ _ (series_apply_rows _ _ _ _ Hds)).
  rewrite (bind_ok _ _ _ _ _ (dict_getitem_insert _ _ _ _)).
  rewrite (setitem_own df1 "description" (description_value me)); [|by rewrite Hlab].
  unfold mret, M_ret. rewrite !insert_insert_eq. do 2 f_equal.
  simpl. rewrite map_map. do 2 f_equal. apply map_ext. intros [i r]. simpl.
  unfold enrich_row. by rewrite description_value_insert_ne.
Qed.

Lemma dropna_rows (t : table) :
  rows (dropna (frame_of_table t)) =
  List.filter (fun ir => complete (header t) ir.2) (rows (frame_of_table t)).
Proof.
  unfold dropna. simpl. apply filter_ext. intros [i r]. simpl.
  apply row_has_na_complete.
Qed.

(** One turn of the loop either stores the enriched partition or raises,
    and leaves the state as it was. *)
Lemma load_part_outcome (data : gmap string DataFrame) (part : string) (st : state) :
  load_part data part st =
  (match partition_outcome (self st) (disk st) part with
   | Ok df => Ok (<[part := df]> data)
   | Raise e => Raise e
   end, st).
Proof.
  unfold load_part, partition_outcome.
  rewrite (bind_ok get_self _ st (self st) st eq_refl).
  destruct (disk st !! partition_path (self st) part) as [[t|]|] eqn:Hd.
  - rewrite (bind_ok (read_csv _) _ st (frame_of_table t) st);
      [|by unfold read_csv; rewrite Hd].
    case_bool_decide as Hq.
    + rewrite enrich_passes.
      * do 3 f_equal. unfold enriched_spec. f_equal. by rewrite dropna_rows.
      * done.
      * apply filter_labels_NoDup. rewrite frame_of_table_labels. apply NoDup_seq.
      * apply filter_Forall, frame_of_table_hashable.
    + cbv zeta. rewrite (bind_ok _ _ _ _ _ (dict_getitem_insert _ _ _ _)).
      apply bind_raise. unfold lift, getitem. by rewrite bool_decide_eq_false_2.
  - apply bind_raise. unfold read_csv. by rewrite Hd.
  - apply bind_raise. unfold read_csv. by rewrite Hd.
Qed.

Lemma for_each_partitions (st : state) :
  for_each load_part partitions ∅ st =
  (match partition_outcome (self st) (disk st) "train" with
   | Raise e => Raise e
   | Ok tr =>
       match partition_outcome (self st) (disk st) "dev" with
       | Raise e => Raise e
       | Ok dv =>
           match partition_outcome (self st) (disk st) "test" with
           | Raise e => Raise e
           | Ok te => Ok (<["test" := te]> (<["dev" := dv]> (<["train" := tr]> ∅)))
           end
       end
   end, st).
Proof.
  unfold partitions. simpl for_each.
  destruct (partition_outcome (self st) (disk st) "train") as [tr|e] eqn:Htr.
  2:{ apply bind_raise. by rewrite load_part_outcome, Htr. }
  rewrite (bind_ok _ _ st (<["train" := tr]> ∅) st);
    [|by rewrite load_part_outcome, Htr].
  destruct (partition_outcome (self st) (disk st) "dev") as [dv|e] eqn:Hdv.
  2:{ apply bind_raise. by rewrite load_part_outcome, Hdv. }
  rewrite (bind_ok _ _ st (<["dev" := dv]> (<["train" := tr]> ∅)) st);
    [|by rewrite load_part_outcome, Hdv].
  destruct (partition_outcome (self st) (disk st) "test") as [te|e] eqn:Hte.
  2:{ apply bind_raise. by rewrite load_part_outcome, Hte. }
  rewrite (bind_ok _ _ st (<["test" := te]> (<["dev" := dv]> (<["train" := tr]> ∅))) st);
    [|by rewrite load_part_outcome, Hte].
  done.
Qed.

(** The whole method: the three partitions in order, the first failure
    wins, the state is left as it was. *)
Lemma load_with_pandas_outcome (st : state) :
  load_with_pandas st = (load_outcome (self st) (disk st), st).
Proof.
  unfold load_with_pandas, load_outcome.
  destruct (partition_outcome (self st) (disk st) "train") as [tr|e] eqn:Htr.
  2:{ apply bind_raise. by rewrite for_each_partitions, Htr. }
  destruct (partition_outcome (self st) (disk st) "dev") as [dv|e] eqn:Hdv.
  2:{ apply bind_raise. by rewrite for_each_partitions, Htr, Hdv. }
  destruct (partition_outcome (self st) (disk st) "test") as [te|e] eqn:Hte.
  2:{ apply bind_raise. by rewrite for_each_partitions, Htr, Hdv, Hte. }
  rewrite (bind_ok _ _ st (<["test" := te]> (<["dev" := dv]> (<["train" := tr]> ∅))) st);
    [|by rewrite for_each_partitions, Htr, Hdv, Hte].
  unfold dict_getitem.
  assert (Htrain : (<["test" := te]> (<["dev" := dv]> (<["train" := tr]> ∅))
                    : gmap string DataFrame) !! "train" = Some tr).
  { rewrite lookup_insert_ne by done. rewrite lookup_insert_ne by done.
    apply lookup_insert_eq. }
  assert (Hdev : (<["test" := te]> (<["dev" := dv]> (<["train" := tr]> ∅))
                  : gmap string DataFrame) !! "dev" = Some dv).
  { rewrite lookup_insert_ne by done. apply lookup_insert_eq. }
  rewrite Htrain, Hdev, lookup_insert_eq.
  rewrite (bind_ok (mret tr) _ st tr st eq_refl).
  rewrite (bind_ok (mret dv) _ st dv st eq_refl).
  by rewrite (bind_ok (mret te) _ st te st eq_refl).
Qed.

Lemma loadable_outcome me dsk part :
  loadable me dsk part ->
  exists t, dsk !! partition_path me part = Some (Parsed t)
            /\ partition_outcome me dsk part = Ok (enriched_spec me t).
Proof.
  intros (t & Hd & Hq). exists t. split; [done|].
  unfold partition_outcome. rewrite Hd. by rewrite bool_decide_eq_true_2.
Qed.

End Load.

(** ** The enriched table, row by row *)

(** The rows of an enriched table are the complete records of the file,
    under their position in the file, enriched. *)
Lemma enriched_spec_rows me (t : table) i (r' : gmap string cell) :
  (i, r') ∈ rows (enriched_spec me t) <->
  exists r, records t !! i = Some r
            /\ complete (header t) (cell_of_field <$> r) = true
            /\ r' = enrich_row me (cell_of_field <$> r).
Proof.
  unfold enriched_spec, frame_of_table. simpl.
  rewrite list_elem_of_In, in_map_iff. split.
  - intros ([j r0] & Heq & Hin). simpl in Heq. injection Heq as -> <-.
    apply filter_In in Hin as [Hin Hc]. simpl in Hc.
    apply list_elem_of_In, elem_of_lookup_imap in Hin as (k & r & Heq & Hr).
    injection Heq as -> ->. eauto.
  - intros (r & Hr & Hc & ->). exists (i, cell_of_field <$> r). split; [done|].
    apply filter_In. split; [|done].
    apply list_elem_of_In. by apply (elem_of_lookup_imap_2 (fun i r => (i, cell_of_field <$> r))).
Qed.

Lemma enrich_row_kg me (r : gmap string cell) :
  enrich_row me r !! "kg" = Some (kg_value me r).
Proof. unfold enrich_row. rewrite lookup_insert_ne by done. apply lookup_insert_eq. Qed.

Lemma enrich_row_description me (r : gmap string cell) :
  enrich_row me r !! "description" = Some (description_value me r).
Proof. unfold enrich_row. apply lookup_insert_eq. Qed.

Lemma enrich_row_other me (r : gmap string cell) c :
  c ≠ "kg" -> c ≠ "description" -> enrich_row me r !! c = r !! c.
Proof. intros H1 H2. unfold enrich_row. by rewrite !lookup_insert_ne. Qed.

(** ** The claims *)

Section Claims.
Context `{Collaborator}.

Lemma run_call_keeps_self (c : call) (st : state) : self (run_call c st) = self st.
Proof.
  destruct c as [|qid d a]; simpl.
  - by rewrite load_with_pandas_outcome.
  - apply lookup_keeps_self.
Qed.

(** C1, as the code has it: the stored list [("p1","v1"), (None,"v2")] is
    flattened in string mode to "p1 v1", one space, then the second pair's
    text, which itself starts with a space because the empty string stands
    for the null name: two spaces separate "v1" from "v2". *)
Theorem lookup_null_name_keeps_both_separators (st : state) qid a :
  properties (self st) !! qid = Some [(Some "p1", Some "v1"); (None, Some "v2")] ->
  get_kg_context_from_qid qid false a st =
  (Ok (KgString "p1 v1  v2", default EmptyString (descriptions (self st) !! qid)), st).
Proof. intros Hl. by rewrite (lookup_known _ _ _ _ _ Hl). Qed.

(** C2, as the code has it: with every earlier partition loadable, an
    absent partition file raises FileNotFoundError (the specification's
    MissingPartitionFile) and a parsed one without the qid column raises
    KeyError (its MalformedPartitionFile); when the partition and the later
    ones are loadable the call succeeds, whatever other columns the files
    have or lack. *)
Theorem load_with_pandas_failures (st : state) pre part post :
  partitions = (pre ++ part :: post)%list ->
  Forall (loadable (self st) (disk st)) pre ->
  (disk st !! partition_path (self st) part = None ->
   load_with_pandas st =
   (Raise (FileNotFoundError (partition_path (self st) part)), st))
  /\ (forall t, disk st !! partition_path (self st) part = Some (Parsed t) ->
      "qid" ∉ header t ->
      load_with_pandas st = (Raise (KeyError "qid"), st))
  /\ (loadable (self st) (disk st) part ->
      Forall (loadable (self st) (disk st)) post ->
      exists frames, load_with_pandas st = (Ok frames, st)).
Proof.
  intros Hparts Hpre. rewrite load_with_pandas_outcome. unfold load_outcome.
  assert (Hgood : forall p, loadable (self st) (disk st) p ->
            exists df, partition_outcome (self st) (disk st) p = Ok df).
  { intros p Hp. apply loadable_outcome in Hp as (t & _ & Ho). eauto. }
  assert (Habsent : disk st !! partition_path (self st) part = None ->
            partition_outcome (self st) (disk st) part
            = Raise (FileNotFoundError (partition_path (self st) part))).
  { intros Hd. unfold partition_outcome. by rewrite Hd. }
  assert (Hnoqid : forall t, disk st !! partition_path (self st) part = Some (Parsed t) ->
            "qid" ∉ header t ->
            partition_outcome (self st) (disk st) part = Raise (KeyError "qid")).
  { intros t Hd Hq. unfold partition_outcome. rewrite Hd.
    by rewrite bool_decide_eq_false_2. }
  unfold partitions in Hparts.
  destruct pre as [|p0 [|p1 [|p2 pre]]]; simpl in Hparts.
  - injection Hparts as <- <-.
    split; [|split].
    + intros Hd. by rewrite (Habsent Hd).
    + intros t Hd Hq. by rewrite (Hnoqid t Hd Hq).
    + intros Hp Hpost.
      apply Forall_cons in Hpost as [Hdev Hpost]. apply Forall_cons in Hpost as [Htest _].
      destruct (Hgood _ Hp) as [tr ->], (Hgood _ Hdev) as [dv ->],
        (Hgood _ Htest) as [te ->]. eauto.
  - injection Hparts as <- <- <-.
    apply Forall_cons in Hpre as [Htrain _]. destruct (Hgood _ Htrain) as [tr ->].
    split; [|split].
    + intros Hd. by rewrite (Habsent Hd).
    + intros t Hd Hq. by rewrite (Hnoqid t Hd Hq).
    + intros Hp Hpost. apply Forall_cons in Hpost as [Htest _].
      destruct (Hgood _ Hp) as [dv ->], (Hgood _ Htest) as [te ->]. eauto.
  - injection Hparts as <- <- <- <-.
    apply Forall_cons in Hpre as [Htrain Hpre]. apply Forall_cons in Hpre as [Hdev _].
    destruct (Hgood _ Htrain) as [tr ->], (Hgood _ Hdev) as [dv ->].
    split; [|split].
    + intros Hd. by rewrite (Habsent Hd).
    + intros t Hd Hq. by rewrite (Hnoqid t Hd Hq).
    + intros Hp _. destruct (Hgood _ Hp) as [te ->]. eauto.
  - injection Hparts as _ _ _ Hnil. by destruct pre.
Qed.

(** C3: when the three partition files parse and have the qid column,
    load_with_pandas returns, in the order train, dev, test, the tables made
    of the complete rows of each file, every row carrying under kg the
    properties stored for its identifier and under description the stored
    description, null where the map has no entry. *)
Theorem load_with_pandas_enriches (st : state) (train dev test : table) :
  disk st !! partition_path (self st) "train" = Some (Parsed train) ->
  disk st !! partition_path (self st) "dev" = Some (Parsed dev) ->
  disk st !! partition_path (self st) "test" = Some (Parsed test) ->
  "qid" ∈ header train -> "qid" ∈ header dev -> "qid" ∈ header test ->
  load_with_pandas st =
  (Ok (enriched_spec (self st) train,
       enriched_spec (self st) dev,
       enriched_spec (self st) test), st).
Proof.
  intros Htr Hdv Hte Hq1 Hq2 Hq3.
  rewrite load_with_pandas_outcome. unfold load_outcome, partition_outcome.
  rewrite Htr, Hdv, Hte. by rewrite !bool_decide_eq_true_2.
Qed.

(** C4: whatever list of properties the method obtains (the one it returns
    in dictionary mode), in string mode it returns that list's pairs, each
    as its two members around a space with the empty string for an absent
    member, separated by single spaces in the list's order. *)
Theorem string_mode_flattens (st st' : state) qid a (l : props) desc :
  get_kg_context_from_qid qid true a st = (Ok (KgList l, desc), st') ->
  get_kg_context_from_qid qid false a st = (Ok (KgString (flatten_spec l), desc), st').
Proof.
  destruct (properties (self st) !! qid) as [l0|] eqn:Hl.
  - rewrite !(lookup_known _ _ _ _ _ Hl). intros [= <- <- <-].
    by rewrite rendered_string.
  - destruct a.
    + rewrite !(lookup_unknown_online _ _ _ Hl). cbv zeta.
      destruct (wikidata_kg_context qid (service st)).1 as [[l0 d0]|e]; [|done].
      intros [= <- <- <-]. by rewrite rendered_string.
    + rewrite !(lookup_unknown_offline _ _ _ Hl). intros [= <- <- <-].
      by rewrite rendered_string.
Qed.

(** C5: for an identifier the properties map knows, without online search,
    the method returns in dictionary mode exactly the stored list (and the
    stored or default description), and the state, with its log of online
    lookups and the service, is as before: the collaborator was not called. *)
Theorem known_offline_returns_stored (st : state) qid (l : props) :
  properties (self st) !! qid = Some l ->
  get_kg_context_from_qid qid true false st =
  (Ok (KgList l, default EmptyString (descriptions (self st) !! qid)), st)
  /\ online_calls (get_kg_context_from_qid qid true false st).2 = online_calls st.
Proof. intros Hl. by rewrite (lookup_known _ _ _ _ _ Hl). Qed.

(** C6, as the code has it: for an identifier the properties map lacks,
    with online search, the collaborator is called once with the identifier
    and its answer replaces both values; the properties are then returned
    per output mode, the exact list in dictionary mode and its flattened
    string otherwise. *)
Theorem unknown_online_uses_collaborator (st : state) qid d (l : props) desc n :
  properties (self st) !! qid = None ->
  wikidata_kg_context qid (service st) = (Ok (l, desc), n) ->
  get_kg_context_from_qid qid d true st =
  (Ok (if d then KgList l else KgString (flatten l), desc),
   {| self := self st; disk := disk st; service := n;
      online_calls := online_calls st ++ [qid] |}).
Proof.
  intros Hl Hw. rewrite (lookup_unknown_online _ _ _ Hl). by rewrite Hw.
Qed.

(** C7: for an identifier absent from both maps, without online search,
    the method returns the empty list (dictionary mode) or the empty string
    (string mode) with the empty description, and raises nothing. *)
Theorem unknown_offline_defaults (st : state) qid d :
  properties (self st) !! qid = None ->
  descriptions (self st) !! qid = None ->
  get_kg_context_from_qid qid d false st =
  (Ok (if d then KgList [] else KgString EmptyString, EmptyString), st).
Proof.
  intros Hl Hd. rewrite (lookup_unknown_offline _ _ _ Hl). rewrite Hd.
  by destruct d.
Qed.

(** C8: two consecutive calls of load_with_pandas return the same result,
    and the disk after each is the disk before the first. *)
Theorem load_with_pandas_twice (st : state) :
  let first := load_with_pandas st in
  let second := load_with_pandas first.2 in
  first.1 = second.1 /\ disk first.2 = disk st /\ disk second.2 = disk st.
Proof. cbv zeta. by rewrite !load_with_pandas_outcome. Qed.

(** C9: after any sequence of calls of load_with_pandas and
    get_kg_context_from_qid, with any arguments, the properties map and the
    descriptions map of the instance are what they were. *)
Theorem maps_never_mutated (cs : list call) (st : state) :
  properties (self (run_calls cs st)) = properties (self st)
  /\ descriptions (self (run_calls cs st)) = descriptions (self st).
Proof.
  revert st. induction cs as [|c cs IH]; intros st; [done|].
  unfold run_calls in *. simpl. destruct (IH (run_call c st)) as [-> ->].
  by rewrite run_call_keeps_self.
Qed.

(** C10: for an identifier with stored properties and no stored
    description, with online search allowed, the method returns the stored
    properties and the empty description and leaves the state, log of
    online lookups included, as it was. *)
Theorem known_properties_description_not_fetched (st : state) qid d (l : props) :
  properties (self st) !! qid = Some l ->
  descriptions (self st) !! qid = None ->
  get_kg_context_from_qid qid d true st = (Ok (rendered d l, EmptyString), st)
  /\ online_calls (get_kg_context_from_qid qid d true st).2 = online_calls st.
Proof. intros Hl Hd. rewrite (lookup_known _ _ _ _ _ Hl). by rewrite Hd. Qed.

End Claims.

(** ** The claims on the sample data *)

(** C1 as stated fails: the sample entity Q1 stores the list of the claim,
    and string mode does not return "p1 v1 v2". *)
Lemma lookup_null_name_not_single_spaced :
  properties Sample.me !! "Q1" = Some [(Some "p1", Some "v1"); (None, Some "v2")]
  /\ forall desc,
       (@get_kg_context_from_qid Sample.offline "Q1" false false
          (Sample.st_offline Sample.disk_full)).1
       <> Ok (KgString "p1 v1 v2", desc).
Proof. split; [reflexivity|]. intros desc. vm_compute. discriminate. Qed.

Lemma lookup_null_name_witness :
  properties Sample.me !! "Q1" = Some [(Some "p1", Some "v1"); (None, Some "v2")]
  /\ @get_kg_context_from_qid Sample.offline "Q1" false true
       (Sample.st_offline Sample.disk_full)
     = (Ok (KgString "p1 v1  v2",
            default EmptyString (descriptions Sample.me !! "Q1")),
        Sample.st_offline Sample.disk_full).
Proof.
  split; [reflexivity|].
  apply (@lookup_null_name_keeps_both_separators Sample.offline
           (Sample.st_offline Sample.disk_full) "Q1" true).
  reflexivity.
Defined.

(** C2 as stated fails: the train file of this disk has neither the
    sentence nor the class column, and the call succeeds. *)
Lemma load_without_sentence_and_class_succeeds :
  Sample.disk_ids_only !! partition_path Sample.me "train" = Some (Parsed Sample.ids_only)
  /\ ("sentence" ∉ header Sample.ids_only)
  /\ ("class" ∉ header Sample.ids_only)
  /\ is_ok (@load_with_pandas Sample.offline (Sample.st_offline Sample.disk_ids_only)).1 = true.
Proof.
  split; [reflexivity|]. split; [|split].
  - apply (bool_decide_unpack _). by vm_compute.
  - apply (bool_decide_unpack _). by vm_compute.
  - by vm_compute.
Qed.

Lemma load_with_pandas_failures_witness :
  @load_with_pandas Sample.offline (Sample.st_offline Sample.disk_no_dev)
  = (Raise (FileNotFoundError (partition_path Sample.me "dev")),
     Sample.st_offline Sample.disk_no_dev)
  /\ @load_with_pandas Sample.offline (Sample.st_offline Sample.disk_no_qid)
     = (Raise (KeyError "qid"), Sample.st_offline Sample.disk_no_qid).
Proof.
  split.
  - apply (@load_with_pandas_failures Sample.offline
             (Sample.st_offline Sample.disk_no_dev) ["train"] "dev" ["test"]).
    + reflexivity.
    + constructor; [|constructor]. exists Sample.full.
      split; [reflexivity | constructor].
    + reflexivity.
  - apply (@load_with_pandas_failures Sample.offline
             (Sample.st_offline Sample.disk_no_qid) ["train"] "dev" ["test"])
      with (t := Sample.no_qid).
    + reflexivity.
    + constructor; [|constructor]. exists Sample.full.
      split; [reflexivity | constructor].
    + reflexivity.
    + apply (bool_decide_unpack _). by vm_compute.
Defined.

Lemma load_with_pandas_enriches_witness :
  @load_with_pandas Sample.offline (Sample.st_offline Sample.disk_full)
  = (Ok (enriched_spec Sample.me Sample.full,
         enriched_spec Sample.me Sample.full,
         enriched_spec Sample.me Sample.full),
     Sample.st_offline Sample.disk_full).
Proof.
  apply (@load_with_pandas_enriches Sample.offline
           (Sample.st_offline Sample.disk_full) Sample.full Sample.full Sample.full);
    try reflexivity; constructor.
Defined.

Lemma string_mode_flattens_witness :
  @get_kg_context_from_qid Sample.canned "Q1" false true
    (Sample.st_canned Sample.disk_full)
  = (Ok (KgString "p1 v1  v2", "first entity"), Sample.st_canned Sample.disk_full)
  /\ @get_kg_context_from_qid Sample.canned "Q999" false true
       (Sample.st_canned Sample.disk_full)
     = (Ok (KgString "p v", "desc"),
        @Build_state Sample.canned Sample.me Sample.disk_full 1 ["Q999"]).
Proof.
  split.
  - apply (@string_mode_flattens Sample.canned (Sample.st_canned Sample.disk_full)
             (Sample.st_canned Sample.disk_full) "Q1" true
             [(Some "p1", Some "v1"); (None, Some "v2")] "first entity").
    reflexivity.
  - apply (@string_mode_flattens Sample.canned (Sample.st_canned Sample.disk_full)
             (@Build_state Sample.canned Sample.me Sample.disk_full 1 ["Q999"])
             "Q999" true [(Some "p", Some "v")] "desc").
    reflexivity.
Defined.

Lemma known_offline_returns_stored_witness :
  @get_kg_context_from_qid Sample.offline "Q7" true false
    (Sample.st_offline Sample.disk_full)
  = (Ok (KgList [(Some "occupation", Some "writer")],
         default EmptyString (descriptions Sample.me !! "Q7")),
     Sample.st_offline Sample.disk_full)
  /\ online_calls
       (@get_kg_context_from_qid Sample.offline "Q7" true false
          (Sample.st_offline Sample.disk_full)).2 = [].
Proof.
  apply (@known_offline_returns_stored Sample.offline
           (Sample.st_offline Sample.disk_full) "Q7").
  reflexivity.
Defined.

(** C6 as stated fails: Q999 is in neither map, the service answers
    ([("p","v")], "desc"), and in string mode, the default, the method does
    not return that pair. *)
Lemma unknown_online_string_mode_not_the_pair :
  properties Sample.me !! "Q999" = None
  /\ descriptions Sample.me !! "Q999" = None
  /\ (@wikidata_kg_context Sample.canned "Q999" 0).1 = Ok ([(Some "p", Some "v")], "desc")
  /\ (@get_kg_context_from_qid Sample.canned "Q999" false true
        (Sample.st_canned Sample.disk_full)).1
     <> Ok (KgList [(Some "p", Some "v")], "desc").
Proof. repeat split; try reflexivity. vm_compute. discriminate. Qed.

Lemma unknown_online_uses_collaborator_witness :
  @get_kg_context_from_qid Sample.canned "Q999" true true
    (Sample.st_canned Sample.disk_full)
  = (Ok (KgList [(Some "p", Some "v")], "desc"),
     @Build_state Sample.canned Sample.me Sample.disk_full 1 ["Q999"])
  /\ @get_kg_context_from_qid Sample.canned "Q999" false true
       (Sample.st_canned Sample.disk_full)
     = (Ok (KgString "p v", "desc"),
        @Build_state Sample.canned Sample.me Sample.disk_full 1 ["Q999"]).
Proof.
  split.
  - apply (@unknown_online_uses_collaborator Sample.canned
             (Sample.st_canned Sample.disk_full) "Q999" true
             [(Some "p", Some "v")] "desc" 1); reflexivity.
  - apply (@unknown_online_uses_collaborator Sample.canned
             (Sample.st_canned Sample.disk_full) "Q999" false
             [(Some "p", Some "v")] "desc" 1); reflexivity.
Defined.

Lemma unknown_offline_defaults_witness :
  @get_kg_context_from_qid Sample.offline "Q999" false false
    (Sample.st_offline Sample.disk_full)
  = (Ok (KgString EmptyString, EmptyString), Sample.st_offline Sample.disk_full)
  /\ @get_kg_context_from_qid Sample.offline "Q999" true false
       (Sample.st_offline Sample.disk_full)
     = (Ok (KgList [], EmptyString), Sample.st_offline Sample.disk_full).
Proof.
  split.
  - apply (@unknown_offline_defaults Sample.offline
             (Sample.st_offline Sample.disk_full) "Q999" false); reflexivity.
  - apply (@unknown_offline_defaults Sample.offline
             (Sample.st_offline Sample.disk_full) "Q999" true); reflexivity.
Defined.

Lemma known_properties_description_not_fetched_witness :
  @get_kg_context_from_qid Sample.canned "Q7" true true
    (Sample.st_canned Sample.disk_full)
  = (Ok (rendered true [(Some "occupation", Some "writer")], EmptyString),
     Sample.st_canned Sample.disk_full)
  /\ online_calls
       (@get_kg_context_from_qid Sample.canned "Q7" true true
          (Sample.st_canned Sample.disk_full)).2 = [].
Proof.
  apply (@known_properties_description_not_fetched Sample.canned
           (Sample.st_canned Sample.disk_full) "Q7" true); reflexivity.
Defined.

(** * Further properties *)

(** ** Strings *)

Lemma string_app_nil (b : string) : EmptyString +:+ b = b.
Proof. reflexivity. Qed.

Lemma string_app_cons (x : ascii) (a b : string) :
  String x a +:+ b = String x (a +:+ b).
Proof. reflexivity. Qed.

Lemma string_app_assoc (a b c : string) : (a +:+ b) +:+ c = a +:+ (b +:+ c).
Proof.
  induction a as [|x a IH]; [by rewrite !string_app_nil|].
  rewrite !string_app_cons. by rewrite IH.
Qed.

Lemma string_length_app (a b : string) :
  String.length (a +:+ b) = String.length a + String.length b.
Proof.
  induction a as [|x a IH]; [by rewrite string_app_nil|].
  rewrite string_app_cons. simpl. by rewrite IH.
Qed.

Lemma string_app_inj_r (a b c : string) : a +:+ c = b +:+ c -> a = b.
Proof.
  revert b. induction a as [|x a IH]; intros [|y b] Heq.
  - done.
  - apply (f_equal String.length) in Heq.
    rewrite !string_length_app in Heq. simpl in Heq. lia.
  - apply (f_equal String.length) in Heq.
    rewrite !string_length_app in Heq. simpl in Heq. lia.
  - rewrite !string_app_cons in Heq. injection Heq as -> Heq. f_equal. by apply IH.
Qed.

Lemma pair_text_length (pv : option string * option string) :
  String.length (pair_text pv)
  = String.length (or_empty pv.1) + String.length (or_empty pv.2) + 1.
Proof.
  destruct pv as [[p|] [v|]]; unfold pair_text; simpl fst; simpl snd;
    rewrite ?string_length_app; simpl; lia.
Qed.

(** X1: flattening a list made of two non-empty parts gives the two
    flattened parts around one space. *)
Theorem flatten_app (l1 l2 : props) :
  l1 <> [] -> l2 <> [] ->
  flatten (l1 ++ l2)%list = flatten l1 +:+ " " +:+ flatten l2.
Proof.
  intros H1 H2. induction l1 as [|pv l1 IH]; [done|].
  rewrite <- app_comm_cons, !flatten_cons.
  destruct l1 as [|pv' l1].
  - simpl app. by destruct l2.
  - rewrite <- app_comm_cons. rewrite app_comm_cons, IH by done.
    by rewrite !string_app_assoc.
Qed.

(** X2: a null member and an empty-string member flatten alike: the string
    of a list is the string of the list with its nulls blanked. *)
Theorem flatten_blank_nulls (l : props) : flatten (blank_nulls l) = flatten l.
Proof.
  induction l as [|pv l IH]; [done|].
  change (blank_nulls (pv :: l))
    with ((Some (or_empty pv.1), Some (or_empty pv.2)) :: blank_nulls l).
  rewrite !flatten_cons, IH.
  assert (Hpair : pair_text (Some (or_empty pv.1), Some (or_empty pv.2)) = pair_text pv)
    by by destruct pv as [[p|] [v|]].
  rewrite Hpair. by destruct l.
Qed.

(** X3: the flattened string of a non-empty list of n pairs has the
    characters of all the members and 2n-1 separators, whatever members
    are null. *)
Theorem flatten_length (l : props) :
  l <> [] ->
  String.length (flatten l) = members_length l + 2 * List.length l - 1.
Proof.
  intros Hne. induction l as [|pv l IH]; [done|].
  rewrite flatten_cons. unfold members_length in *. simpl map. simpl sum_list.
  destruct l as [|pv' l].
  - rewrite pair_text_length. simpl. lia.
  - rewrite !string_length_app, pair_text_length, IH by done. simpl. lia.
Qed.

(** X4: the flattened string does not tell a space inside a member from a
    separator: moving a word across the pair's separator gives the same
    string. *)
Theorem flatten_ambiguous (a b c : string) (rest : props) :
  flatten ((Some (a +:+ " " +:+ b), Some c) :: rest)
  = flatten ((Some a, Some (b +:+ " " +:+ c)) :: rest).
Proof.
  rewrite !flatten_cons. unfold pair_text. simpl.
  destruct rest; by rewrite !string_app_assoc.
Qed.

(** ** The point lookup, further *)

Section LookupMore.
Context `{Collaborator}.

(** X5: the lookup raises exactly when it goes online and the collaborator
    raises, and then with the collaborator's own exception. *)
Theorem lookup_raises_only_from_collaborator (st : state) qid d a e :
  (get_kg_context_from_qid qid d a st).1 = Raise e <->
  a = true /\ properties (self st) !! qid = None
  /\ (wikidata_kg_context qid (service st)).1 = Raise e.
Proof.
  destruct (properties (self st) !! qid) as [l|] eqn:Hl.
  - rewrite (lookup_known _ _ _ _ _ Hl). simpl.
    split; [done | by intros (_ & ? & _)].
  - destruct a.
    + rewrite (lookup_unknown_online _ _ _ Hl). cbv zeta.
      destruct (wikidata_kg_context qid (service st)).1 as [[l desc]|e']; simpl.
      * split; [done | by intros (_ & _ & ?)].
      * split; [by intros [= ->] | by intros (_ & _ & [= ->])].
    + rewrite (lookup_unknown_offline _ _ _ Hl). simpl.
      split; [done | by intros (? & _)].
Qed.

(** X6: what a lookup leaves behind: nothing changes unless the identifier
    is unknown to the properties map and online search is allowed; then the
    service has answered one request and the log has one more entry, the
    identifier itself; the instance and the disk are as before. *)
Theorem lookup_state_after (st : state) qid d a :
  (get_kg_context_from_qid qid d a st).2 =
  match properties (self st) !! qid, a with
  | None, true =>
      {| self := self st; disk := disk st;
         service := (wikidata_kg_context qid (service st)).2;
         online_calls := online_calls st ++ [qid] |}
  | _, _ => st
  end.
Proof.
  destruct (properties (self st) !! qid) as [l|] eqn:Hl.
  - by rewrite (lookup_known _ _ _ _ _ Hl).
  - destruct a.
    + rewrite (lookup_unknown_online _ _ _ Hl). cbv zeta.
      by destruct (wikidata_kg_context qid (service st)).1 as [[l desc]|e'].
    + by rewrite (lookup_unknown_offline _ _ _ Hl).
Qed.

(** X7: an identifier with a stored description but no stored properties:
    offline the stored description comes back with the empty properties;
    online the collaborator's description replaces the stored one. *)
Theorem online_overrides_stored_description (st : state) qid d local l remote n :
  properties (self st) !! qid = None ->
  descriptions (self st) !! qid = Some local ->
  wikidata_kg_context qid (service st) = (Ok (l, remote), n) ->
  (get_kg_context_from_qid qid d false st).1 = Ok (rendered d [], local)
  /\ (get_kg_context_from_qid qid d true st).1 = Ok (rendered d l, remote).
Proof.
  intros Hl Hd Hw. rewrite (lookup_unknown_offline _ _ _ Hl), Hd.
  rewrite (lookup_unknown_online _ _ _ Hl), Hw. done.
Qed.

(** X8: an online answer is not kept: after an online lookup the
    identifier is still unknown to the properties map, and looking it up
    again asks the collaborator again. *)
Theorem online_lookup_not_cached (st : state) qid d d' :
  properties (self st) !! qid = None ->
  let st1 := (get_kg_context_from_qid qid d true st).2 in
  properties (self st1) !! qid = None
  /\ online_calls (get_kg_context_from_qid qid d' true st1).2
     = (online_calls st ++ [qid; qid])%list.
Proof.
  intros Hl st1.
  assert (Hself : self st1 = self st) by apply lookup_keeps_self.
  assert (Hl1 : properties (self st1) !! qid = None) by by rewrite Hself.
  split; [done|].
  assert (Hlog : forall (s : state) b, properties (self s) !! qid = None ->
            online_calls (get_kg_context_from_qid qid b true s).2
            = (online_calls s ++ [qid])%list).
  { intros s b Hs. rewrite (lookup_unknown_online _ _ _ Hs). cbv zeta.
    by destruct (wikidata_kg_context qid (service s)).1 as [[??]|?]. }
  rewrite (Hlog st1 d' Hl1). unfold st1. rewrite (Hlog st d Hl).
  by rewrite <- app_assoc.
Qed.

End LookupMore.

(** ** The partition tables, further *)

Lemma partition_outcome_ok me dsk part df :
  partition_outcome me dsk part = Ok df ->
  exists t, dsk !! partition_path me part = Some (Parsed t)
            /\ "qid" ∈ header t /\ df = enriched_spec me t.
Proof.
  unfold partition_outcome.
  destruct (dsk !! partition_path me part) as [[t|]|]; [|done|done].
  case_bool_decide as Hq; [|done]. intros [= <-]. eauto.
Qed.

Lemma partition_outcome_raise me dsk part e :
  partition_outcome me dsk part = Raise e ->
  (dsk !! partition_path me part = None
   /\ e = FileNotFoundError (partition_path me part))
  \/ (dsk !! partition_path me part = Some Unparsable
      /\ e = ParserError (partition_path me part))
  \/ (exists t, dsk !! partition_path me part = Some (Parsed t)
                /\ ("qid" ∉ header t) /\ e = KeyError "qid").
Proof.
  unfold partition_outcome.
  destruct (dsk !! partition_path me part) as [[t|]|].
  - case_bool_decide as Hq; [done|]. intros [= <-]. right. right. eauto.
  - intros [= <-]. right. left. done.
  - intros [= <-]. left. done.
Qed.

Lemma filter_sublist {A} (p : A -> bool) (l : list A) : sublist (List.filter p l) l.
Proof.
  induction l as [|a l IH]; simpl; [constructor|].
  destruct (p a); by constructor.
Qed.

Lemma enriched_spec_labels me (t : table) :
  sublist (rows (enriched_spec me t)).*1 (seq 0 (List.length (records t))).
Proof.
  rewrite <- frame_of_table_labels. unfold enriched_spec. simpl.
  assert (Hfst : forall l : list (nat * gmap string cell),
            (map (fun ir => (ir.1, enrich_row me ir.2)) l).*1 = l.*1).
  { intros l. induction l as [|[i r] l IH]; simpl; [done|]. by f_equal. }
  rewrite Hfst. apply fmap_sublist, filter_sublist.
Qed.

Lemma complete_cell (cols : list string) (r : gmap string field) c :
  complete cols (cell_of_field <$> r) = true -> c ∈ cols ->
  exists f, r !! c = Some f /\ f <> Missing.
Proof.
  unfold complete. intros Hall Hc. rewrite forallb_forall in Hall.
  specialize (Hall c (proj1 (list_elem_of_In _ _) Hc)).
  rewrite cell_at_parsed in Hall.
  destruct (r !! c) as [[| |]|]; simpl in Hall; try done; eauto.
Qed.

Lemma cells_complete (cols : list string) (r : gmap string field) :
  (forall c, c ∈ cols -> exists f, r !! c = Some f /\ f <> Missing) ->
  complete cols (cell_of_field <$> r) = true.
Proof.
  intros Hall. unfold complete. apply forallb_forall. intros c Hc.
  destruct (Hall c (proj2 (list_elem_of_In _ _) Hc)) as (f & Hf & Hne).
  rewrite cell_at_parsed, Hf. by destruct f.
Qed.

Lemma with_column_prefix (cols : list string) c : cols `prefix_of` with_column cols c.
Proof.
  unfold with_column. case_bool_decide; [done|]. by apply prefix_app_r.
Qed.

Lemma with_column_elem (cols : list string) c : c ∈ with_column cols c.
Proof.
  unfold with_column. case_bool_decide; [done|]. apply elem_of_app. right.
  apply list_elem_of_singleton. done.
Qed.

Lemma with_column_mono (cols : list string) c c' : c ∈ cols -> c ∈ with_column cols c'.
Proof.
  intros Hc. unfold with_column. case_bool_decide; [done|]. apply elem_of_app. by left.
Qed.

Lemma startswith_sep_name (name rest rest' : string) :
  Py.startswith_sep (name +:+ "." +:+ rest) = Py.startswith_sep (name +:+ "." +:+ rest').
Proof. by destruct name. Qed.

(** X9: two different partition names never share a file: the path of a
    partition determines its name, whatever the directory, the dataset name
    and the extension. *)
Theorem partition_path_distinct (me : DaNED) (part part' : string) :
  part <> part' -> partition_path me part <> partition_path me part'.
Proof.
  intros Hne Heq. apply Hne. unfold partition_path, Py.os_path_join in Heq.
  rewrite (startswith_sep_name _ _ (part' +:+ file_extension me)) in Heq.
  assert (Hb : dataset_name me +:+ "." +:+ part +:+ file_extension me
               = dataset_name me +:+ "." +:+ part' +:+ file_extension me).
  { destruct (Py.startswith_sep _); [done|].
    destruct (_ || _).
    - by apply String.app_inj in Heq.
    - by do 2 apply String.app_inj in Heq. }
  do 2 apply String.app_inj in Hb. by apply string_app_inj_r in Hb.
Qed.

Section LoadMore.
Context `{Collaborator}.

Lemma load_ok_partition (st st' : state) frames part df :
  load_with_pandas st = (Ok frames, st') ->
  partition_frame frames part = Some df ->
  exists t, disk st !! partition_path (self st) part = Some (Parsed t)
            /\ "qid" ∈ header t /\ df = enriched_spec (self st) t.
Proof.
  rewrite load_with_pandas_outcome. intros [= Hout _]. revert Hout.
  unfold load_outcome.
  destruct (partition_outcome (self st) (disk st) "train") as [tr|] eqn:Htr; [|done].
  destruct (partition_outcome (self st) (disk st) "dev") as [dv|] eqn:Hdv; [|done].
  destruct (partition_outcome (self st) (disk st) "test") as [te|] eqn:Hte; [|done].
  intros [= <-]. unfold partition_frame. simpl.
  repeat case_bool_decide; subst; intros [= <-]; by apply partition_outcome_ok.
Qed.

Lemma lookup_keeps_disk (st : state) qid d a :
  disk (get_kg_context_from_qid qid d a st).2 = disk st.
Proof.
  destruct (properties (self st) !! qid) as [l|] eqn:Hl.
  - by rewrite (lookup_known _ _ _ _ _ Hl).
  - destruct a.
    + rewrite (lookup_unknown_online _ _ _ Hl). simpl.
      by destruct (wikidata_kg_context qid (service st)).1 as [[??]|?].
    + by rewrite (lookup_unknown_offline _ _ _ Hl).
Qed.

(** X10: load_with_pandas leaves everything as it found it, also when it
    raises: the instance, the disk, the online service and the log of online
    lookups; it never goes online. *)
Theorem load_with_pandas_leaves_state (st : state) : (load_with_pandas st).2 = st.
Proof. by rewrite load_with_pandas_outcome. Qed.

(** X11: the only exceptions load_with_pandas raises are those of reading
    a partition file (absent, or not parsable) and the missing qid column;
    in particular an identifier that is not a string raises nothing. *)
Theorem load_with_pandas_exceptions (st st' : state) e :
  load_with_pandas st = (Raise e, st') ->
  exists part, part ∈ partitions
    /\ ((disk st !! partition_path (self st) part = None
         /\ e = FileNotFoundError (partition_path (self st) part))
        \/ (disk st !! partition_path (self st) part = Some Unparsable
            /\ e = ParserError (partition_path (self st) part))
        \/ (exists t, disk st !! partition_path (self st) part = Some (Parsed t)
                      /\ ("qid" ∉ header t) /\ e = KeyError "qid")).
Proof.
  rewrite load_with_pandas_outcome. intros [= Hout _]. revert Hout.
  unfold load_outcome, partitions.
  destruct (partition_outcome (self st) (disk st) "train") as [tr|e1] eqn:Htr.
  2:{ intros [= <-]. exists "train". split; [set_solver|].
      by apply partition_outcome_raise. }
  destruct (partition_outcome (self st) (disk st) "dev") as [dv|e2] eqn:Hdv.
  2:{ intros [= <-]. exists "dev". split; [set_solver|].
      by apply partition_outcome_raise. }
  destruct (partition_outcome (self st) (disk st) "test") as [te|e3] eqn:Hte.
  2:{ intros [= <-]. exists "test". split; [set_solver|].
      by apply partition_outcome_raise. }
  done.
Qed.

(** X12: load_with_pandas succeeds exactly when each of the three
    partition files parses and has the qid column. *)
Theorem load_with_pandas_succeeds_iff (st : state) :
  (exists frames, load_with_pandas st = (Ok frames, st))
  <-> Forall (loadable (self st) (disk st)) partitions.
Proof.
  split.
  - intros [frames Hload]. unfold partitions.
    repeat apply Forall_cons_2; [| | |constructor].
    + destruct (load_ok_partition st st frames "train" frames.1.1 Hload eq_refl)
        as (t & ? & ? & _). by exists t.
    + destruct (load_ok_partition st st frames "dev" frames.1.2 Hload eq_refl)
        as (t & ? & ? & _). by exists t.
    + destruct (load_ok_partition st st frames "test" frames.2 Hload eq_refl)
        as (t & ? & ? & _). by exists t.
  - unfold partitions. intros Hall.
    apply Forall_cons in Hall as [Htr Hall]. apply Forall_cons in Hall as [Hdv Hall].
    apply Forall_cons in Hall as [Hte _].
    apply loadable_outcome in Htr as (t1 & _ & Ho1).
    apply loadable_outcome in Hdv as (t2 & _ & Ho2).
    apply loadable_outcome in Hte as (t3 & _ & Ho3).
    rewrite load_with_pandas_outcome. unfold load_outcome.
    rewrite Ho1, Ho2, Ho3. eauto.
Qed.

(** X13: the returned rows keep the order and the index labels of the
    file: the labels of a returned table are a sublist of 0, 1, ..., n-1
    for a file of n records (the index is not renumbered after the drop). *)
Theorem loaded_labels_in_file_order (st st' : state) frames part df :
  load_with_pandas st = (Ok frames, st') ->
  partition_frame frames part = Some df ->
  exists t, disk st !! partition_path (self st) part = Some (Parsed t)
            /\ sublist (rows df).*1 (seq 0 (List.length (records t))).
Proof.
  intros Hload Hdf.
  destruct (load_ok_partition _ _ _ _ _ Hload Hdf) as (t & Hd & _ & ->).
  exists t. split; [done|]. apply enriched_spec_labels.
Qed.

(** X14: every returned row is a record of the file with all its fields
    present: under each column of the file other than kg and description
    the row holds the record's field, and that field is not missing. *)
Theorem loaded_cells_as_read (st st' : state) frames part df i (r : gmap string cell) :
  load_with_pandas st = (Ok frames, st') ->
  partition_frame frames part = Some df ->
  (i, r) ∈ rows df ->
  exists t rec, disk st !! partition_path (self st) part = Some (Parsed t)
    /\ records t !! i = Some rec
    /\ forall c, c ∈ header t -> c <> "kg" -> c <> "description" ->
         exists f, rec !! c = Some f /\ f <> Missing
                   /\ r !! c = Some (cell_of_field f).
Proof.
  intros Hload Hdf Hin.
  destruct (load_ok_partition _ _ _ _ _ Hload Hdf) as (t & Hd & _ & ->).
  apply enriched_spec_rows in Hin as (rec & Hrec & Hc & ->).
  exists t, rec. split; [done|]. split; [done|].
  intros c Hcol Hkg Hds.
  destruct (complete_cell _ _ _ Hc Hcol) as (f & Hf & Hne).
  exists f. split; [done|]. split; [done|].
  rewrite enrich_row_other by done. by rewrite lookup_fmap, Hf.
Qed.

(** X15: the columns of a returned table are the file's columns in order,
    followed by kg and description when the file does not have them; a kg
    or description column of the file keeps its place (and is overwritten). *)
Theorem loaded_columns (st st' : state) frames part df :
  load_with_pandas st = (Ok frames, st') ->
  partition_frame frames part = Some df ->
  exists t, disk st !! partition_path (self st) part = Some (Parsed t)
    /\ header t `prefix_of` columns df
    /\ "kg" ∈ columns df /\ "description" ∈ columns df
    /\ ("kg" ∉ header t -> "description" ∉ header t ->
        columns df = (header t ++ ["kg"; "description"])%list)
    /\ ("kg" ∈ header t -> "description" ∈ header t -> columns df = header t).
Proof.
  intros Hload Hdf.
  destruct (load_ok_partition _ _ _ _ _ Hload Hdf) as (t & Hd & _ & ->).
  exists t. split; [done|]. unfold enriched_spec. simpl.
  split; [|split; [|split; [|split]]].
  - etrans; apply with_column_prefix.
  - apply with_column_mono, with_column_elem.
  - apply with_column_elem.
  - intros Hkg Hds. unfold with_column.
    rewrite (bool_decide_eq_false_2 _ Hkg).
    rewrite bool_decide_eq_false_2; [by rewrite <- app_assoc|].
    intros Hin. apply elem_of_app in Hin as [Hin|Hin]; [done|].
    by apply list_elem_of_singleton in Hin.
  - intros Hkg Hds. unfold with_column.
    rewrite (bool_decide_eq_true_2 _ Hkg). by rewrite (bool_decide_eq_true_2 _ Hds).
Qed.

(** X16: a returned row and the point lookup read the same map entries:
    for a row whose identifier is the string q, the kg and description
    cells hold what the maps store under q, and the offline lookup of q in
    dictionary mode returns the same entries; for an identifier the maps do
    not know, the cells are None where the lookup returns the empty list
    and the empty string. *)
Theorem loaded_row_agrees_with_lookup (st st' : state) frames part df i
    (r : gmap string cell) q :
  load_with_pandas st = (Ok frames, st') ->
  partition_frame frames part = Some df ->
  (i, r) ∈ rows df ->
  cell_at r "qid" = CStr q ->
  r !! "kg" = Some (from_option CList PyNone (properties (self st) !! q))
  /\ r !! "description" = Some (from_option CStr PyNone (descriptions (self st) !! q))
  /\ get_kg_context_from_qid q true false st
     = (Ok (KgList (default [] (properties (self st) !! q)),
            default EmptyString (descriptions (self st) !! q)), st).
Proof.
  intros Hload Hdf Hin Hq.
  destruct (load_ok_partition _ _ _ _ _ Hload Hdf) as (t & Hd & _ & ->).
  apply enriched_spec_rows in Hin as (rec & Hrec & Hc & ->).
  unfold enrich_row in Hq. rewrite !cell_at_insert_ne in Hq by done.
  rewrite enrich_row_kg, enrich_row_description.
  unfold kg_value, description_value. rewrite Hq.
  split; [by destruct (properties (self st) !! q)|].
  split; [by destruct (descriptions (self st) !! q)|].
  destruct (properties (self st) !! q) as [l|] eqn:Hl.
  - by rewrite (lookup_known _ _ _ _ _ Hl).
  - by rewrite (lookup_unknown_offline _ _ _ Hl).
Qed.

(** X17: a row whose identifier is not a string (a qid column parsed as
    numbers) gets None in both derived columns; nothing is raised. *)
Theorem loaded_non_string_identifier (st st' : state) frames part df i
    (r : gmap string cell) :
  load_with_pandas st = (Ok frames, st') ->
  partition_frame frames part = Some df ->
  (i, r) ∈ rows df ->
  (forall q, cell_at r "qid" <> CStr q) ->
  r !! "kg" = Some PyNone /\ r !! "description" = Some PyNone.
Proof.
  intros Hload Hdf Hin Hq.
  destruct (load_ok_partition _ _ _ _ _ Hload Hdf) as (t & Hd & _ & ->).
  apply enriched_spec_rows in Hin as (rec & Hrec & Hc & ->).
  assert (Hq' : forall q, cell_at (cell_of_field <$> rec) "qid" <> CStr q).
  { intros q Heq. apply (Hq q). unfold enrich_row. by rewrite !cell_at_insert_ne. }
  rewrite enrich_row_kg, enrich_row_description.
  unfold kg_value, description_value.
  destruct (cell_at (cell_of_field <$> rec) "qid") as [| |q| |] eqn:Hc'; try done.
  exfalso. by apply (Hq' q).
Qed.

(** X20: no record with all its fields present is lost, whatever its
    identifier: it is returned under its position in the file (the drop
    happens before the enrichment, so an identifier unknown to the maps
    keeps its row). *)
Theorem loaded_keeps_complete_records (st st' : state) frames part df t i
    (rec : gmap string field) :
  load_with_pandas st = (Ok frames, st') ->
  partition_frame frames part = Some df ->
  disk st !! partition_path (self st) part = Some (Parsed t) ->
  records t !! i = Some rec ->
  (forall c, c ∈ header t -> exists f, rec !! c = Some f /\ f <> Missing) ->
  (i, enrich_row (self st) (cell_of_field <$> rec)) ∈ rows df.
Proof.
  intros Hload Hdf Hd Hrec Hall.
  destruct (load_ok_partition _ _ _ _ _ Hload Hdf) as (t' & Hd' & _ & ->).
  rewrite Hd in Hd'. injection Hd' as <-.
  apply enriched_spec_rows. exists rec. split; [done|]. split; [|done].
  by apply cells_complete.
Qed.

(** X18: load_with_pandas reads the three partition files and nothing
    else on the disk: two disks that agree on those three paths give the
    same result to the same instance. *)
Theorem load_with_pandas_reads_only_partitions (st1 st2 : state) :
  self st1 = self st2 ->
  (forall part, part ∈ partitions ->
     disk st1 !! partition_path (self st1) part
     = disk st2 !! partition_path (self st1) part) ->
  (load_with_pandas st1).1 = (load_with_pandas st2).1.
Proof.
  intros Hself Hdisk. rewrite !load_with_pandas_outcome. simpl.
  unfold load_outcome, partition_outcome. rewrite <- Hself.
  rewrite <- !Hdisk; [done|unfold partitions; set_solver..].
Qed.

(** X19: a point lookup, online or not, never changes what a later
    load_with_pandas returns. *)
Theorem lookup_does_not_change_load (st : state) qid d a :
  (load_with_pandas (get_kg_context_from_qid qid d a st).2).1
  = (load_with_pandas st).1.
Proof.
  rewrite !load_with_pandas_outcome. simpl.
  by rewrite lookup_keeps_self, lookup_keeps_disk.
Qed.

End LoadMore.

(** ** The further properties on the sample data *)

Lemma flatten_app_witness :
  flatten ([(Some "p1", Some "v1")] ++ [(None, Some "v2")])%list
  = flatten [(Some "p1", Some "v1")] +:+ " " +:+ flatten [(None, Some "v2")].
Proof. apply (flatten_app [(Some "p1", Some "v1")] [(None, Some "v2")]); discriminate. Defined.

Lemma flatten_length_witness :
  String.length (flatten Sample.p1v1)
  = members_length Sample.p1v1 + 2 * List.length Sample.p1v1 - 1.
Proof. apply (flatten_length Sample.p1v1). discriminate. Defined.

Lemma online_overrides_stored_description_witness :
  (@get_kg_context_from_qid Sample.canned "Q999" true false Sample2.st_desc_only).1
  = Ok (rendered true [], "local text")
  /\ (@get_kg_context_from_qid Sample.canned "Q999" true true Sample2.st_desc_only).1
     = Ok (rendered true [(Some "p", Some "v")], "desc").
Proof.
  apply (@online_overrides_stored_description Sample.canned Sample2.st_desc_only
           "Q999" true "local text" [(Some "p", Some "v")] "desc" 1); reflexivity.
Defined.

Lemma online_lookup_not_cached_witness :
  let st1 := (@get_kg_context_from_qid Sample.canned "Q999" false true
                (Sample.st_canned Sample.disk_full)).2 in
  properties (self st1) !! "Q999" = None
  /\ online_calls (@get_kg_context_from_qid Sample.canned "Q999" true true st1).2
     = ([] ++ ["Q999"; "Q999"])%list.
Proof.
  apply (@online_lookup_not_cached Sample.canned (Sample.st_canned Sample.disk_full)
           "Q999" false true).
  reflexivity.
Defined.

Lemma partition_path_distinct_witness :
  partition_path Sample.me "train" <> partition_path Sample.me "dev".
Proof. apply (partition_path_distinct Sample.me "train" "dev"). discriminate. Defined.

Lemma load_with_pandas_exceptions_witness :
  exists part, part ∈ partitions
    /\ ((Sample2.disk_unparsable !! partition_path Sample.me part = None
         /\ ParserError Sample.train_path = FileNotFoundError (partition_path Sample.me part))
        \/ (Sample2.disk_unparsable !! partition_path Sample.me part = Some Unparsable
            /\ ParserError Sample.train_path = ParserError (partition_path Sample.me part))
        \/ (exists t, Sample2.disk_unparsable !! partition_path Sample.me part = Some (Parsed t)
                      /\ ("qid" ∉ header t)
                      /\ ParserError Sample.train_path = KeyError "qid")).
Proof.
  apply (@load_with_pandas_exceptions Sample.offline
           (Sample.st_offline Sample2.disk_unparsable)
           (Sample.st_offline Sample2.disk_unparsable)).
  vm_compute. reflexivity.
Defined.

Lemma loaded_labels_in_file_order_witness :
  exists t, Sample.disk_full !! partition_path Sample.me "dev" = Some (Parsed t)
            /\ sublist (rows (enriched_spec Sample.me Sample.full)).*1
                 (seq 0 (List.length (records t))).
Proof.
  apply (@loaded_labels_in_file_order Sample.offline
           (Sample.st_offline Sample.disk_full) (Sample.st_offline Sample.disk_full)
           Sample2.frames_full "dev").
  - vm_compute. reflexivity.
  - reflexivity.
Defined.

Lemma loaded_cells_as_read_witness :
  exists t rec, Sample.disk_full !! partition_path Sample.me "train" = Some (Parsed t)
    /\ records t !! 0 = Some rec
    /\ forall c, c ∈ header t -> c <> "kg" -> c <> "description" ->
         exists f, rec !! c = Some f /\ f <> Missing
                   /\ Sample2.first_row !! c = Some (cell_of_field f).
Proof.
  apply (@loaded_cells_as_read Sample.offline
           (Sample.st_offline Sample.disk_full) (Sample.st_offline Sample.disk_full)
           Sample2.frames_full "train" (enriched_spec Sample.me Sample.full)).
  - vm_compute. reflexivity.
  - reflexivity.
  - vm_compute. constructor.
Defined.

Lemma loaded_columns_witness :
  exists t, Sample.disk_full !! partition_path Sample.me "test" = Some (Parsed t)
    /\ header t `prefix_of` columns (enriched_spec Sample.me Sample.full)
    /\ "kg" ∈ columns (enriched_spec Sample.me Sample.full)
    /\ "description" ∈ columns (enriched_spec Sample.me Sample.full)
    /\ ("kg" ∉ header t -> "description" ∉ header t ->
        columns (enriched_spec Sample.me Sample.full)
        = (header t ++ ["kg"; "description"])%list)
    /\ ("kg" ∈ header t -> "description" ∈ header t ->
        columns (enriched_spec Sample.me Sample.full) = header t).
Proof.
  apply (@loaded_columns Sample.offline
           (Sample.st_offline Sample.disk_full) (Sample.st_offline Sample.disk_full)
           Sample2.frames_full "test").
  - vm_compute. reflexivity.
  - reflexivity.
Defined.

Lemma loaded_row_agrees_with_lookup_witness :
  Sample2.first_row !! "kg" = Some (from_option CList PyNone (properties Sample.me !! "Q1"))
  /\ Sample2.first_row !! "description"
     = Some (from_option CStr PyNone (descriptions Sample.me !! "Q1"))
  /\ @get_kg_context_from_qid Sample.offline "Q1" true false
       (Sample.st_offline Sample.disk_full)
     = (Ok (KgList (default [] (properties Sample.me !! "Q1")),
            default EmptyString (descriptions Sample.me !! "Q1")),
        Sample.st_offline Sample.disk_full).
Proof.
  apply (@loaded_row_agrees_with_lookup Sample.offline
           (Sample.st_offline Sample.disk_full) (Sample.st_offline Sample.disk_full)
           Sample2.frames_full "train" (enriched_spec Sample.me Sample.full) 0).
  - vm_compute. reflexivity.
  - reflexivity.
  - vm_compute. constructor.
  - reflexivity.
Defined.

Lemma loaded_non_string_identifier_witness :
  Sample2.numeric_row !! "kg" = Some PyNone
  /\ Sample2.numeric_row !! "description" = Some PyNone.
Proof.
  apply (@loaded_non_string_identifier Sample.offline
           (Sample.st_offline Sample2.disk_numeric) (Sample.st_offline Sample2.disk_numeric)
           Sample2.frames_numeric "train" (enriched_spec Sample.me Sample2.numeric_ids) 0).
  - vm_compute. reflexivity.
  - reflexivity.
  - vm_compute. constructor.
  - intros q. vm_compute. discriminate.
Defined.

Lemma loaded_keeps_complete_records_witness :
  (2, enrich_row Sample.me
        (cell_of_field <$>
           ({[ "qid" := Text "Q7"; "sentence" := Text "c"; "class" := Number 0 ]}
            : gmap string field)))
  ∈ rows (enriched_spec Sample.me Sample.full).
Proof.
  apply (@loaded_keeps_complete_records Sample.offline
           (Sample.st_offline Sample.disk_full) (Sample.st_offline Sample.disk_full)
           Sample2.frames_full "train" (enriched_spec Sample.me Sample.full) Sample.full 2).
  - vm_compute. reflexivity.
  - reflexivity.
  - reflexivity.
  - reflexivity.
  - intros c Hc. simpl in Hc.
    repeat (apply elem_of_cons in Hc as [->|Hc]; [eexists; split; [reflexivity|discriminate]|]).
    by apply elem_of_nil in Hc.
Defined.

Lemma load_with_pandas_reads_only_partitions_witness :
  (@load_with_pandas Sample.offline (Sample.st_offline Sample.disk_full)).1
  = (@load_with_pandas Sample.offline (Sample.st_offline Sample2.disk_with_readme)).1.
Proof.
  apply (@load_with_pandas_reads_only_partitions Sample.offline
           (Sample.st_offline Sample.disk_full)
           (Sample.st_offline Sample2.disk_with_readme)).
  - reflexivity.
  - intros part Hpart. unfold partitions in Hpart.
    repeat (apply elem_of_cons in Hpart as [->|Hpart]; [reflexivity|]).
    by apply elem_of_nil in Hpart.
Defined.
